(** * Train and Host a Keras Sequential Model (tensorflow_keras_CIFAR10.ipynb)

    A shallow embedding of the notebook: the Python values it handles, the
    model-definition functions it shows ([keras_model_fn], [serving_input_fn])
    and the sequence of code cells, written as a program in a small
    exception-and-trace monad over an arbitrary platform (the SDK, numpy and
    the shell are external and are only known through the calls made to
    them). *)

From Stdlib Require Import ZArith Lia.
From stdpp Require Import base option strings list gmap.

(** ** Python values *)

(** A decimal literal [mant]e[expo], as written in the source ([1e-4],
    [0.25]); the notebook does no arithmetic on them. *)
Record decimal := Dec { mant : Z; expo : Z }.

Set Warnings "-register-all".

(** The values that flow through the notebook. Objects handed back by the
    SDK are kept as their class name and their attributes; an array is kept
    as its shape (its entries are random numbers). *)
Inductive pyval :=
| PyNone
| PyInt (n : Z)
| PyFloat (d : decimal)
| PyStr (s : string)
| PyArray (shape : list nat)
| PyDict (d : gmap string pyval)
| PyObj (cls : string) (attrs : gmap string pyval).

Inductive exn :=
| KeyError (key : string)
| AttributeError (name : string)
| Exception (cls msg : string).

Inductive result (A : Type) :=
| Ok (a : A)
| Raise (e : exn).
Arguments Ok {A} a.
Arguments Raise {A} e.

(** [d[k]] on a dict. *)
Definition getitem (d : gmap string pyval) (k : string) : result pyval :=
  match d !! k with
  | Some v => Ok v
  | None => Raise (KeyError k)
  end.

(** [o.name] on an object. *)
Definition getattr (o : pyval) (name : string) : result pyval :=
  match o with
  | PyObj _ attrs =>
      match attrs !! name with
      | Some v => Ok v
      | None => Raise (AttributeError name)
      end
  | _ => Raise (AttributeError name)
  end.

(** A scalar is a value with no structure inside. *)
Definition is_scalar (v : pyval) : bool :=
  match v with
  | PyNone | PyInt _ | PyFloat _ | PyStr _ => true
  | PyArray _ | PyDict _ | PyObj _ _ => false
  end.

Definition is_number (v : pyval) : bool :=
  match v with
  | PyInt _ | PyFloat _ => true
  | _ => false
  end.

(** A flat mapping: every value is a scalar. *)
Definition flat (d : gmap string pyval) : Prop :=
  map_Forall (fun _ v => is_scalar v = true) d.

(** ** The model script, as the notebook shows it *)

(** Modelled from the spec: the constants HEIGHT, WIDTH, DEPTH and
    NUM_CLASSES are defined in cifar10_cnn.py, which is not among the
    sources; the data model gives CIFAR-10 as 32x32x3 images across 10
    classes. *)
Definition HEIGHT : nat := 32.
Definition WIDTH : nat := 32.
Definition DEPTH : nat := 3.
Definition NUM_CLASSES : nat := 10.

Inductive padding := same | valid.

(** The layer constructors used by [keras_model_fn], with the arguments the
    source passes (the others keep the framework's defaults). *)
Inductive Layer :=
| Conv2D (filters : nat) (kernel_size : nat * nat) (pad : padding)
         (name : option string) (input_shape : option (nat * nat * nat))
| Activation (activation : string)
| MaxPooling2D (pool_size : nat * nat)
| Dropout (rate : decimal)
| Flatten
| Dense (units : nat).

Inductive Optimizer :=
| RMSPropOptimizer (learning_rate decay : pyval).

Record CompileArgs := {
  loss : string;
  optimizer : Optimizer;
  metrics : list string
}.

(** A Sequential model: the layers added so far and, once [compile] has
    been called, its arguments. *)
Record Sequential := {
  layers : list Layer;
  compiled : option CompileArgs
}.

Definition Sequential_new : Sequential := {| layers := []; compiled := None |}.

(** [model.add(layer)] *)
Definition add (layer : Layer) (model : Sequential) : Sequential :=
  {| layers := layers model ++ [layer]; compiled := compiled model |}.

(** [model.compile(loss=..., optimizer=..., metrics=...)] *)
Definition compile (args : CompileArgs) (model : Sequential) : Sequential :=
  {| layers := layers model; compiled := Some args |}.

Definition bind_result {A B} (r : result A) (k : A -> result B) : result B :=
  match r with
  | Ok a => k a
  | Raise e => Raise e
  end.

Notation "'try!' x ':=' r 'in' k" := (bind_result r (fun x => k))
  (at level 10, x name, r at level 200, k at level 200).

(** The layer stack [keras_model_fn] has built when it reaches the
    optimizer line. *)
Definition cifar10_stack : Sequential :=
  let model := Sequential_new in
  let model := add (Conv2D 32 (3, 3) same (Some "inputs")
                      (Some (HEIGHT, WIDTH, DEPTH))) model in
  let model := add (Activation "relu") model in
  let model := add (Conv2D 32 (3, 3) valid None None) model in
  let model := add (Activation "relu") model in
  let model := add (MaxPooling2D (2, 2)) model in
  let model := add (Dropout (Dec 25 (-2))) model in
  let model := add (Conv2D 64 (3, 3) same None None) model in
  let model := add (Activation "relu") model in
  let model := add (Conv2D 64 (3, 3) valid None None) model in
  let model := add (Activation "relu") model in
  let model := add (MaxPooling2D (2, 2)) model in
  let model := add (Dropout (Dec 25 (-2))) model in
  let model := add Flatten model in
  let model := add (Dense 512) model in
  let model := add (Activation "relu") model in
  let model := add (Dropout (Dec 5 (-1))) model in
  let model := add (Dense NUM_CLASSES) model in
  let model := add (Activation "softmax") model in
  model.

Definition keras_model_fn (hyperparameters : gmap string pyval)
  : result Sequential :=
  let model := cifar10_stack in
  try! lr := getitem hyperparameters "learning_rate" in
  try! dc := getitem hyperparameters "decay" in
  let opt := RMSPropOptimizer lr dc in
  let model := compile {| loss := "categorical_crossentropy";
                          optimizer := opt;
                          metrics := ["accuracy"] |} model in
  Ok model.

(** [tf.placeholder(dtype, shape=...)]: [None] is an unknown dimension. *)
Record Placeholder := {
  dtype : string;
  shape : list (option nat)
}.

Record ServingInputReceiver := {
  features : gmap string Placeholder;
  receiver_tensors : gmap string Placeholder
}.

Inductive ModeKeys := TRAIN | EVAL.

Section InputFunctions.
(** INPUT_TENSOR_NAME, BATCH_SIZE and the helper _input are defined in
    cifar10_cnn.py, which is not among the sources: they are parameters
    of the input functions. *)
Variable INPUT_TENSOR_NAME : string.
Variable BATCH_SIZE : Z.
Variable Dataset : Type.
Variable _input : ModeKeys -> Z -> pyval -> Dataset.

Definition serving_input_fn (params : pyval) : ServingInputReceiver :=
  let tensor := {| dtype := "float32";
                   shape := [None; Some HEIGHT; Some WIDTH; Some DEPTH] |} in
  let inputs : gmap string Placeholder := {[ INPUT_TENSOR_NAME := tensor ]} in
  {| features := inputs; receiver_tensors := inputs |}.

Definition train_input_fn (training_dir params : pyval) : Dataset :=
  _input TRAIN BATCH_SIZE training_dir.

Definition eval_input_fn (training_dir params : pyval) : Dataset :=
  _input EVAL BATCH_SIZE training_dir.
End InputFunctions.

(** ** Shapes, as the framework propagates them *)

(** A concrete shape fits a placeholder shape when the ranks agree and every
    known dimension is equal. *)
Fixpoint shape_fits (s : list nat) (p : list (option nat)) : bool :=
  match s, p with
  | [], [] => true
  | n :: s', None :: p' => shape_fits s' p'
  | n :: s', Some m :: p' => Nat.eqb n m && shape_fits s' p'
  | _, _ => false
  end.

(** The output shape of one layer on a batch of shape [N; H; W; C] (or
    [N; F] after Flatten), with stride 1 convolutions and pooling windows
    that do not overlap, which are the defaults the source relies on. *)
Definition layer_shape (l : Layer) (s : list nat) : option (list nat) :=
  match l, s with
  | Conv2D f (kh, kw) same _ _, [n; h; w; _] => Some [n; h; w; f]
  | Conv2D f (kh, kw) valid _ _, [n; h; w; _] =>
      if ((kh <=? h) && (kw <=? w))%nat
      then Some [n; h + 1 - kh; w + 1 - kw; f]
      else None
  | MaxPooling2D (ph, pw), [n; h; w; c] =>
      if ((0 <? ph) && (0 <? pw) && (ph <=? h) && (pw <=? w))%nat
      then Some [n; h / ph; w / pw; c]
      else None
  | Flatten, n :: rest => Some [n; foldr Nat.mul 1 rest]
  | Dense u, [n; _] => Some [n; u]
  | Activation _, _ => Some s
  | Dropout _, _ => Some s
  | _, _ => None
  end.

Fixpoint stack_shape (ls : list Layer) (s : list nat) : option (list nat) :=
  match ls with
  | [] => Some s
  | l :: ls' =>
      match layer_shape l s with
      | Some s' => stack_shape ls' s'
      | None => None
      end
  end.

(** The shape the first layer declares for one sample. *)
Definition declared_input_shape (m : Sequential) : option (nat * nat * nat) :=
  match layers m with
  | Conv2D _ _ _ _ sh :: _ => sh
  | _ => None
  end.


(** ** The platform the notebook talks to *)

(** The keyword arguments of [TensorFlow(...)]. *)
Record EstimatorArgs := {
  entry_point : string;
  role : pyval;
  framework_version : string;
  hyperparameters : pyval;
  training_steps : Z;
  evaluation_steps : Z;
  train_instance_count : Z;
  train_instance_type : string
}.

(** The calls the code cells make out of the notebook, with their
    arguments. *)
Inductive Call :=
| Session_new                                        (* sagemaker.Session() *)
| get_execution_role                                 (* get_execution_role() *)
| cifar10_download                                   (* utils.cifar10_download() *)
| upload_data (self : pyval) (path key_prefix : string)
| shell (cmd : string)                               (* !cmd *)
| TensorFlow_new (args : EstimatorArgs)              (* TensorFlow(...) *)
| fit (self inputs : pyval)
| deploy (self : pyval) (initial_instance_count : Z) (instance_type : string)
| randn (dims : list nat)                            (* np.random.randn(...) *)
| predict (self data : pyval)
| delete_endpoint (self endpoint_name : pyval).

(** Whatever is behind the calls: its state, and for every call the value
    it returns or the exception it raises, with the state it leaves. *)
Record Platform := {
  World : Type;
  exec : Call -> World -> result pyval * World
}.

(** The code cells, by the heading they stand under. *)
Inductive Cell :=
| SetUp | Download | Upload | Source | ModelFn | InputFns
| Train | Deploy | Predict | CleanUp.

Global Instance Cell_eq_dec : EqDecision Cell.
Proof. solve_decision. Defined.

Record Event := {
  ev_cell : Cell;
  ev_call : Call;
  ev_result : result pyval
}.

Section Notebook.
Context (P : Platform).

(** A cell runs against the trace of the calls made so far and the
    platform's state; an exception ends the run. *)
Definition NB (A : Type) : Type :=
  list Event * World P -> result A * (list Event * World P).

Definition ret {A} (a : A) : NB A := fun s => (Ok a, s).

Definition bind {A B} (m : NB A) (k : A -> NB B) : NB B :=
  fun s =>
    match m s with
    | (Ok a, s') => k a s'
    | (Raise e, s') => (Raise e, s')
    end.

Definition lift {A} (r : result A) : NB A := fun s => (r, s).

Definition call (cell : Cell) (c : Call) : NB pyval :=
  fun s =>
    let '(r, w') := exec P c (snd s) in
    (r, (fst s ++ [{| ev_cell := cell; ev_call := c; ev_result := r |}], w')).

Notation "'let*' x ':=' m 'in' k" := (bind m (fun x => k))
  (at level 10, x name, m at level 200, k at level 200).

Definition cell_setup : NB (pyval * pyval) :=
  let* sagemaker_session := call SetUp Session_new in
  let* role := call SetUp get_execution_role in
  ret (sagemaker_session, role).

Definition cell_download : NB unit :=
  let* _ := call Download cifar10_download in
  ret tt.

Definition cell_upload (sagemaker_session : pyval) : NB pyval :=
  let* inputs := call Upload (upload_data sagemaker_session
                                "/tmp/cifar10_data" "data/DEMO-cifar10") in
  ret inputs.

Definition cell_source : NB unit :=
  let* _ := call Source (shell "cat cifar10_cnn.py") in
  ret tt.

(** The two cells that only define functions ([keras_model_fn]; the three
    input functions) call nothing. *)
Definition cell_model_fn : NB unit := ret tt.
Definition cell_input_fns : NB unit := ret tt.

Definition notebook_hyperparameters : gmap string pyval :=
  <["decay" := PyFloat (Dec 1 (-6))]>
    (<["learning_rate" := PyFloat (Dec 1 (-4))]> ∅).

Definition cell_train (role inputs : pyval) : NB pyval :=
  let* estimator :=
    call Train (TensorFlow_new
                  {| entry_point := "cifar10_cnn.py";
                     role := role;
                     framework_version := "1.11.0";
                     hyperparameters := PyDict notebook_hyperparameters;
                     training_steps := 1000;
                     evaluation_steps := 100;
                     train_instance_count := 1;
                     train_instance_type := "ml.c4.xlarge" |}) in
  let* _ := call Train (fit estimator inputs) in
  ret estimator.

Definition cell_deploy (estimator : pyval) : NB pyval :=
  let* predictor := call Deploy (deploy estimator 1 "ml.m4.xlarge") in
  ret predictor.

Definition cell_predict (predictor : pyval) : NB pyval :=
  let* data := call Predict (randn [1; 32; 32; 3]) in
  let* out := call Predict
                (predict predictor (PyDict {[ "inputs_input" := data ]})) in
  ret out.

(** [sagemaker.Session().delete_endpoint(predictor.endpoint)]: the
    receiver is built first, then the argument is read. *)
Definition cell_cleanup (predictor : pyval) : NB unit :=
  let* session := call CleanUp Session_new in
  let* endpoint := lift (getattr predictor "endpoint") in
  let* _ := call CleanUp (delete_endpoint session endpoint) in
  ret tt.

(** The cells from top to bottom; they share the kernel's variables. The
    import lines only bind names and are left out. *)
Definition notebook : NB unit :=
  let* sr := cell_setup in
  let sagemaker_session := fst sr in
  let role := snd sr in
  let* _ := cell_download in
  let* inputs := cell_upload sagemaker_session in
  let* _ := cell_source in
  let* _ := cell_model_fn in
  let* _ := cell_input_fns in
  let* estimator := cell_train role inputs in
  let* predictor := cell_deploy estimator in
  let* _ := cell_predict predictor in
  cell_cleanup predictor.

Definition run (w : World P) : result unit * (list Event * World P) :=
  notebook ([], w).

Definition outcome (w : World P) : result unit := fst (run w).
Definition trace (w : World P) : list Event := fst (snd (run w)).
Definition final (w : World P) : World P := snd (snd (run w)).
End Notebook.

Arguments ret {P A} a.
Arguments bind {P A B} m k.
Arguments lift {P A} r.

(** ** A small platform to run the notebook on *)

(** What the account holds: objects in the bucket, finished training jobs,
    live endpoints. *)
Record account := {
  s3_objects : list string;
  training_jobs : list string;
  endpoints : list string
}.

Definition string_eqb (a b : string) : bool := bool_decide (a = b).

Definition demo_exec (c : Call) (w : account) : result pyval * account :=
  match c with
  | Session_new => (Ok (PyObj "Session" ∅), w)
  | get_execution_role => (Ok (PyStr "arn:aws:iam::000000000000:role/demo"), w)
  | cifar10_download => (Ok PyNone, w)
  | upload_data _ _ key_prefix =>
      (Ok (PyStr ("s3://sagemaker-demo/" +:+ key_prefix)),
       {| s3_objects := key_prefix :: s3_objects w;
          training_jobs := training_jobs w;
          endpoints := endpoints w |})
  | shell _ => (Ok PyNone, w)
  | TensorFlow_new args =>
      (Ok (PyObj "TensorFlow" {[ "entry_point" := PyStr (entry_point args) ]}), w)
  | fit _ _ =>
      (Ok PyNone,
       {| s3_objects := "model.tar.gz" :: s3_objects w;
          training_jobs := "sagemaker-tensorflow-job" :: training_jobs w;
          endpoints := endpoints w |})
  | deploy _ _ _ =>
      (Ok (PyObj "TensorFlowPredictor"
             {[ "endpoint" := PyStr "sagemaker-tensorflow-endpoint" ]}),
       {| s3_objects := s3_objects w;
          training_jobs := training_jobs w;
          endpoints := "sagemaker-tensorflow-endpoint" :: endpoints w |})
  | randn dims => (Ok (PyArray dims), w)
  | predict _ _ => (Ok (PyDict {[ "outputs" := PyArray [1; NUM_CLASSES] ]}), w)
  | delete_endpoint _ (PyStr name) =>
      (Ok PyNone,
       {| s3_objects := s3_objects w;
          training_jobs := training_jobs w;
          endpoints := List.filter (fun n => negb (string_eqb n name)) (endpoints w) |})
  | delete_endpoint _ _ => (Raise (Exception "ParamValidationError" "EndpointName"), w)
  end.

Definition demo : Platform := {| World := account; exec := demo_exec |}.

Definition empty_account : account :=
  {| s3_objects := []; training_jobs := []; endpoints := [] |}.

(** The same platform, except that the calls selected by [bad] raise [e]
    and leave the state as it was. *)
Definition failing (bad : Call -> bool) (e : exn) : Platform :=
  {| World := account;
     exec := fun c w => if bad c then (Raise e, w) else demo_exec c w |}.

Definition is_fit (c : Call) : bool :=
  match c with
  | fit _ _ => true
  | _ => false
  end.

(** ** The flow of the notebook *)

(** The steps of the flow, in the order the overview gives them; the other
    three code cells (showing the script, defining its functions) are not
    steps of it. *)
Definition flow : list Cell :=
  [SetUp; Download; Upload; Train; Deploy; Predict; CleanUp].

Definition is_step (c : Cell) : bool := bool_decide (c ∈ flow).

(** Consecutive calls of one cell count as one step. *)
Fixpoint squash (l : list Cell) : list Cell :=
  match l with
  | [] => []
  | a :: l' =>
      match l' with
      | [] => [a]
      | b :: _ => if decide (a = b) then squash l' else a :: squash l'
      end
  end.

Definition steps_performed (tr : list Event) : list Cell :=
  squash (List.filter is_step (map ev_cell tr)).

(** The steps that come before [c] in the flow. *)
Fixpoint upto (c : Cell) (l : list Cell) : list Cell :=
  match l with
  | [] => []
  | a :: l' => if decide (a = c) then [] else a :: upto c l'
  end.

Definition before (c : Cell) : list Cell :=
  if is_step c then upto c flow else [].


Fixpoint ordered_after (seen l : list Cell) : bool :=
  match l with
  | [] => true
  | c :: l' =>
      forallb (fun s => bool_decide (s ∈ seen)) (before c)
      && ordered_after (seen ++ [c]) l'
  end.

Definition returned (e : Event) : bool :=
  match ev_result e with
  | Ok _ => true
  | Raise _ => false
  end.


(** ** The prediction request *)

Definition is_predict (c : Call) : bool :=
  match c with
  | predict _ _ => true
  | _ => false
  end.

Definition predict_calls (tr : list Event) : list Event :=
  List.filter (fun e => is_predict (ev_call e)) tr.



(** ** The interfaces behind the calls *)

(** Where a callee comes from, by the import that brings it in:
    [import sagemaker], [from sagemaker import get_execution_role] and
    [from sagemaker.tensorflow import TensorFlow] (and the methods of the
    objects these hand back) are the platform's SDK; [import utils] is a
    module that sits next to the notebook; [import numpy as np] is numpy;
    a line that starts with [!] goes to the shell. *)
Inductive Interface :=
| PlatformSDK | Framework | Numpy | Shell | LocalModule.

Definition interface_of (c : Call) : Interface :=
  match c with
  | Session_new | get_execution_role | upload_data _ _ _ | TensorFlow_new _
  | fit _ _ | deploy _ _ _ | predict _ _ | delete_endpoint _ _ => PlatformSDK
  | cifar10_download => LocalModule
  | shell _ => Shell
  | randn _ => Numpy
  end.

(** The two interfaces the spec enumerates. *)
Definition enumerated (c : Call) : bool :=
  match interface_of c with
  | PlatformSDK | Framework => true
  | Numpy | Shell | LocalModule => false
  end.

(** ** Teardown *)

Definition is_delete (c : Call) : bool :=
  match c with
  | delete_endpoint _ _ => true
  | _ => false
  end.

Definition delete_calls (tr : list Event) : list Event :=
  List.filter (fun e => is_delete (ev_call e)) tr.



(** The demo account as it is when the run reaches teardown. *)
Definition account_before_cleanup : account :=
  {| s3_objects := ["model.tar.gz"; "data/DEMO-cifar10"];
     training_jobs := ["sagemaker-tensorflow-job"];
     endpoints := ["sagemaker-tensorflow-endpoint"] |}.

Definition demo_predictor : pyval :=
  PyObj "TensorFlowPredictor"
    {[ "endpoint" := PyStr "sagemaker-tensorflow-endpoint" ]}.

(** * Proofs *)

(** * Running the notebook on the demo platform *)

Example demo_outcome : outcome demo empty_account = Ok tt.
Proof. vm_compute. reflexivity. Qed.

Example demo_final :
  final demo empty_account =
  {| s3_objects := ["model.tar.gz"; "data/DEMO-cifar10"];
     training_jobs := ["sagemaker-tensorflow-job"];
     endpoints := [] |}.
Proof. vm_compute. reflexivity. Qed.

Example demo_cells :
  map ev_cell (trace demo empty_account) =
  [SetUp; SetUp; Download; Upload; Source; Train; Train; Deploy;
   Predict; Predict; CleanUp; CleanUp].
Proof. vm_compute. reflexivity. Qed.

Example demo_steps : steps_performed (trace demo empty_account) = flow.
Proof. vm_compute. reflexivity. Qed.

Example fit_fails_outcome :
  outcome (failing is_fit (Exception "ClientError" "training job failed")) empty_account
  = Raise (Exception "ClientError" "training job failed").
Proof. vm_compute. reflexivity. Qed.

Example fit_fails_steps :
  steps_performed (trace (failing is_fit (Exception "ClientError" "training job failed")) empty_account)
  = [SetUp; Download; Upload; Train].
Proof. vm_compute. reflexivity. Qed.

Example before_Train : before Train = [SetUp; Download; Upload].
Proof. vm_compute. reflexivity. Qed.

Example before_Source : before Source = [].
Proof. vm_compute. reflexivity. Qed.

Example out_of_order_rejected :
  ordered_after [] [SetUp; Upload; Download] = false.
Proof. vm_compute. reflexivity. Qed.

Example stack_shape_sample :
  stack_shape (layers cifar10_stack) [1; 32; 32; 3] = Some [1; 10].
Proof. vm_compute. reflexivity. Qed.

Example shape_misfit : shape_fits [1; 28; 28; 1] [None; Some 32; Some 32; Some 3] = false.
Proof. reflexivity. Qed.

(** Teardown opens a session of its own: a complete run creates two. *)
Example demo_sessions :
  map ev_cell (List.filter (fun e => match ev_call e with
                                     | Session_new => true
                                     | _ => false
                                     end) (trace demo empty_account))
  = [SetUp; CleanUp].
Proof. vm_compute. reflexivity. Qed.

(** * The shape of every run *)

(** Unfold the cells and split on what each call in turn gives back: one
    goal per place where the run can end. *)
Ltac run_cells :=
  unfold trace, outcome, final, run, notebook, cell_setup, cell_download,
    cell_upload, cell_source, cell_model_fn, cell_input_fns, cell_train,
    cell_deploy, cell_predict, cell_cleanup, bind, call, ret, lift;
  cbn [fst snd app];
  repeat match goal with
  | |- context [exec ?P ?c ?w] =>
      let v := fresh "v" in let e := fresh "e" in let w' := fresh "w" in
      let E := fresh "E" in
      destruct (exec P c w) as [[v|e] w'] eqn:E; cbn [fst snd app]
  | |- context [getattr ?o ?n] =>
      let E := fresh "A" in destruct (getattr o n) eqn:E; cbn [fst snd app]
  end.

(** Find an event in a trace that is written out. *)
Ltac find_event :=
  solve [repeat first [apply list_elem_of_here | apply list_elem_of_further]].

(** Go through a trace that is written out, event by event. *)
Ltac each_event tac :=
  repeat (apply Forall_cons; split;
          [cbn [ev_cell ev_call ev_result]; tac|]);
  try apply Forall_nil_2.



(** * The claims *)


(** ** The model function *)

Lemma getitem_Some (d : gmap string pyval) (k : string) (v : pyval) :
  d !! k = Some v → getitem d k = Ok v.
Proof. intros H. unfold getitem. by rewrite H. Qed.

Lemma getitem_None (d : gmap string pyval) (k : string) :
  d !! k = None → getitem d k = Raise (KeyError k).
Proof. intros H. unfold getitem. by rewrite H. Qed.

Lemma getitem_Ok_inv (d : gmap string pyval) (k : string) (v : pyval) :
  getitem d k = Ok v → d !! k = Some v.
Proof. unfold getitem. destruct (d !! k); congruence. Qed.

(** What [keras_model_fn] returns is the stack with [compile] applied. *)
Lemma keras_model_fn_Ok_inv (hp : gmap string pyval) (m : Sequential) :
  keras_model_fn hp = Ok m →
  ∃ lr dc,
    hp !! "learning_rate" = Some lr ∧ hp !! "decay" = Some dc ∧
    m = compile {| loss := "categorical_crossentropy";
                   optimizer := RMSPropOptimizer lr dc;
                   metrics := ["accuracy"] |} cifar10_stack.
Proof.
  unfold keras_model_fn. cbn zeta.
  destruct (getitem hp "learning_rate") as [lr|] eqn:Hlr; [|discriminate].
  destruct (getitem hp "decay") as [dc|] eqn:Hdc; [|discriminate].
  cbn [bind_result]. intros [= <-].
  exists lr, dc. by split_and!; try apply getitem_Ok_inv.
Qed.

Lemma keras_model_fn_layers (hp : gmap string pyval) (m : Sequential) :
  keras_model_fn hp = Ok m → layers m = layers cifar10_stack.
Proof.
  intros (lr & dc & _ & _ & ->)%keras_model_fn_Ok_inv. reflexivity.
Qed.

Lemma notebook_hyperparameters_lr :
  notebook_hyperparameters !! "learning_rate" = Some (PyFloat (Dec 1 (-4))).
Proof.
  unfold notebook_hyperparameters.
  rewrite lookup_insert_ne by done. apply lookup_insert_eq.
Qed.

Lemma notebook_hyperparameters_decay :
  notebook_hyperparameters !! "decay" = Some (PyFloat (Dec 1 (-6))).
Proof. unfold notebook_hyperparameters. apply lookup_insert_eq. Qed.

(** C9. On every mapping that has the keys learning_rate and decay,
    keras_model_fn returns the Sequential stack compiled with the
    categorical-crossentropy loss, an RMSProp optimizer built from exactly
    the two values found, and the accuracy metric; on a mapping that lacks
    one of the keys it raises KeyError on a missing key and returns no
    model. *)
Theorem C9_model_or_KeyError (hp : gmap string pyval) :
  (∀ lr dc,
     hp !! "learning_rate" = Some lr → hp !! "decay" = Some dc →
     keras_model_fn hp =
       Ok {| layers := layers cifar10_stack;
             compiled := Some {| loss := "categorical_crossentropy";
                                 optimizer := RMSPropOptimizer lr dc;
                                 metrics := ["accuracy"] |} |})
  ∧ (hp !! "learning_rate" = None ∨ hp !! "decay" = None →
     ∃ k, keras_model_fn hp = Raise (KeyError k)
          ∧ (k = "learning_rate" ∨ k = "decay") ∧ hp !! k = None).
Proof.
  split.
  - intros lr dc Hlr Hdc. unfold keras_model_fn. cbn zeta.
    rewrite (getitem_Some _ _ _ Hlr), (getitem_Some _ _ _ Hdc).
    reflexivity.
  - intros Hmiss. unfold keras_model_fn. cbn zeta.
    destruct (hp !! "learning_rate") as [lr|] eqn:Hlr.
    + destruct Hmiss as [?|Hdc]; [discriminate|].
      exists "decay".
      rewrite (getitem_Some _ _ _ Hlr), (getitem_None _ _ Hdc). auto.
    + exists "learning_rate". rewrite (getitem_None _ _ Hlr). auto.
Qed.

Lemma C9_witness :
  keras_model_fn notebook_hyperparameters =
    Ok {| layers := layers cifar10_stack;
          compiled := Some {| loss := "categorical_crossentropy";
                              optimizer := RMSPropOptimizer (PyFloat (Dec 1 (-4)))
                                             (PyFloat (Dec 1 (-6)));
                              metrics := ["accuracy"] |} |}
  ∧ ∃ k, keras_model_fn {[ "learning_rate" := PyFloat (Dec 1 (-4)) ]}
         = Raise (KeyError k)
         ∧ (k = "learning_rate" ∨ k = "decay")
         ∧ ({[ "learning_rate" := PyFloat (Dec 1 (-4)) ]} : gmap string pyval) !! k = None.
Proof.
  split.
  - apply (proj1 (C9_model_or_KeyError notebook_hyperparameters)).
    + exact notebook_hyperparameters_lr.
    + exact notebook_hyperparameters_decay.
  - apply (proj2 (C9_model_or_KeyError {[ "learning_rate" := PyFloat (Dec 1 (-4)) ]})).
    right. reflexivity.
Defined.

Example KeyError_names_first_missing :
  keras_model_fn ∅ = Raise (KeyError "learning_rate").
Proof. reflexivity. Qed.

(** C3. The model keras_model_fn returns is sized for CIFAR-10: its first
    layer declares the input shape (HEIGHT, WIDTH, DEPTH) = (32, 32, 3), its
    last two layers are Dense(NUM_CLASSES) with NUM_CLASSES = 10 and a
    softmax activation, a batch of shape (1, 32, 32, 3) goes through the
    stack to a shape (1, 10), and the fake data the notebook asks numpy for
    has that shape: one sample of the declared input shape. *)
Theorem C3_model_dimensions (hp : gmap string pyval) (m : Sequential) :
  keras_model_fn hp = Ok m →
  declared_input_shape m = Some (HEIGHT, WIDTH, DEPTH)
  ∧ (HEIGHT, WIDTH, DEPTH) = (32, 32, 3)
  ∧ (∃ body, layers m = body ++ [Dense NUM_CLASSES; Activation "softmax"])
  ∧ NUM_CLASSES = 10
  ∧ stack_shape (layers m) [1; 32; 32; 3] = Some [1; 10]
  ∧ ∀ (P : Platform) (w : World P),
      Forall (fun e => match ev_call e with
                       | randn dims => dims = [1; HEIGHT; WIDTH; DEPTH]
                       | _ => True
                       end) (trace P w).
Proof.
  intros Hm.
  unfold declared_input_shape.
  rewrite (keras_model_fn_layers hp m Hm).
  split_and!; try reflexivity.
  - by eexists (removelast (removelast (layers cifar10_stack))).
  - intros P w. run_cells; each_event ltac:(first [exact I | reflexivity]).
Qed.

Lemma C3_witness :
  ∃ m, keras_model_fn notebook_hyperparameters = Ok m
       ∧ declared_input_shape m = Some (32, 32, 3)
       ∧ stack_shape (layers m) [1; 32; 32; 3] = Some [1; 10].
Proof.
  eexists. split; [reflexivity|].
  split.
  - exact (proj1 (C3_model_dimensions notebook_hyperparameters _ eq_refl)).
  - exact (proj1 (proj2 (proj2 (proj2 (proj2
             (C3_model_dimensions notebook_hyperparameters _ eq_refl)))))).
Defined.

(** ** Hyperparameters *)

Lemma notebook_hyperparameters_flat : flat notebook_hyperparameters.
Proof.
  unfold flat, notebook_hyperparameters.
  repeat (apply map_Forall_insert_2; [reflexivity|]).
  apply map_Forall_empty.
Qed.

Lemma notebook_hyperparameters_numbers :
  map_Forall (fun _ v => is_number v = true) notebook_hyperparameters.
Proof.
  unfold notebook_hyperparameters.
  repeat (apply map_Forall_insert_2; [reflexivity|]).
  apply map_Forall_empty.
Qed.

Lemma notebook_hyperparameters_dom :
  dom notebook_hyperparameters = ({[ "learning_rate"; "decay" ]} : gset string).
Proof.
  unfold notebook_hyperparameters.
  rewrite !dom_insert_L, dom_empty_L. set_solver.
Qed.

(** C4. The hyperparameters handed to the training job are the flat mapping
    {'learning_rate': 1e-4, 'decay': 1e-6}: exactly these two string keys,
    each bound to a number, nothing nested. keras_model_fn uses its argument
    only through the two lookups by name: two mappings that agree on
    learning_rate and decay give the same result, and on a flat mapping the
    values that reach the optimizer are scalars. *)
Theorem C4_flat_hyperparameters :
  (∀ (P : Platform) (w : World P),
     Forall (fun e => match ev_call e with
                      | TensorFlow_new args =>
                          ∃ d, hyperparameters args = PyDict d
                               ∧ flat d
                               ∧ dom d = ({[ "learning_rate"; "decay" ]} : gset string)
                               ∧ map_Forall (fun _ v => is_number v = true) d
                               ∧ d !! "learning_rate" = Some (PyFloat (Dec 1 (-4)))
                               ∧ d !! "decay" = Some (PyFloat (Dec 1 (-6)))
                      | _ => True
                      end) (trace P w))
  ∧ (∀ h1 h2 : gmap string pyval,
       h1 !! "learning_rate" = h2 !! "learning_rate" →
       h1 !! "decay" = h2 !! "decay" →
       keras_model_fn h1 = keras_model_fn h2)
  ∧ (∀ (h : gmap string pyval) (m : Sequential),
       flat h → keras_model_fn h = Ok m →
       ∃ lr dc, optimizer <$> compiled m = Some (RMSPropOptimizer lr dc)
                ∧ h !! "learning_rate" = Some lr ∧ is_scalar lr = true
                ∧ h !! "decay" = Some dc ∧ is_scalar dc = true).
Proof.
  split_and!.
  - intros P w.
    assert (∃ d, PyDict notebook_hyperparameters = PyDict d
                 ∧ flat d
                 ∧ dom d = ({[ "learning_rate"; "decay" ]} : gset string)
                 ∧ map_Forall (fun _ v => is_number v = true) d
                 ∧ d !! "learning_rate" = Some (PyFloat (Dec 1 (-4)))
                 ∧ d !! "decay" = Some (PyFloat (Dec 1 (-6)))) as Hd.
    { exists notebook_hyperparameters.
      split_and!; auto using notebook_hyperparameters_flat,
        notebook_hyperparameters_numbers, notebook_hyperparameters_dom,
        notebook_hyperparameters_lr, notebook_hyperparameters_decay. }
    run_cells; each_event ltac:(first [exact I | exact Hd]).
  - intros h1 h2 Hlr Hdc. unfold keras_model_fn, getitem. cbn zeta.
    by rewrite Hlr, Hdc.
  - intros h m Hflat (lr & dc & Hlr & Hdc & ->)%keras_model_fn_Ok_inv.
    exists lr, dc. split_and!; [reflexivity|done| |done|].
    + exact (Hflat _ _ Hlr).
    + exact (Hflat _ _ Hdc).
Qed.

Lemma C4_witness :
  keras_model_fn notebook_hyperparameters
  = keras_model_fn (<["batch_size" := PyInt 128]> notebook_hyperparameters).
Proof.
  apply (proj1 (proj2 C4_flat_hyperparameters)); reflexivity.
Defined.

Example nested_is_not_flat :
  ¬ flat {[ "optimizer" := PyDict {[ "learning_rate" := PyFloat (Dec 1 (-4)) ]} ]}.
Proof.
  intros H. specialize (H "optimizer" _ (lookup_singleton_eq _ _)). discriminate.
Qed.

(** ** The prediction request *)





Example demo_predict_calls :
  map ev_call (predict_calls (trace demo empty_account)) =
  [predict demo_predictor (PyDict {[ "inputs_input" := PyArray [1; 32; 32; 3] ]})].
Proof. vm_compute. reflexivity. Qed.



(** C10. Every estimator the notebook constructs asks for exactly one
    training instance, and every training job is submitted on such an
    estimator: fit is only called on a value that TensorFlow(...) returned
    for train_instance_count = 1. *)
Theorem C10_single_instance (P : Platform) (w : World P) :
  Forall (fun e => match ev_call e with
                   | TensorFlow_new args => train_instance_count args = 1%Z
                   | fit self _ =>
                       ∃ args, {| ev_cell := Train;
                                  ev_call := TensorFlow_new args;
                                  ev_result := Ok self |} ∈ trace P w
                               ∧ train_instance_count args = 1%Z
                   | _ => True
                   end) (trace P w).
Proof.
  run_cells; each_event ltac:(try first [exact I | reflexivity]).
  all: eexists; split; [find_event|reflexivity].
Qed.

Example demo_instance_counts :
  omap (fun e => match ev_call e with
                 | TensorFlow_new args => Some (train_instance_count args)
                 | _ => None
                 end) (trace demo empty_account) = [1%Z].
Proof. vm_compute. reflexivity. Qed.

(** ** Exceptions *)


Example fit_fails_trace :
  map (fun e => (ev_cell e, returned e))
    (trace (failing is_fit (Exception "ClientError" "training job failed")) empty_account)
  = [(SetUp, true); (SetUp, true); (Download, true); (Upload, true);
     (Source, true); (Train, true); (Train, false)].
Proof. vm_compute. reflexivity. Qed.

(** ** Interfaces *)

(** The claim C6 as stated fails: in the run on the demo platform the
    notebook calls numpy's randn, which is neither a call of the platform's
    SDK nor one of the framework's model and estimator API. *)
Lemma C6_numpy_call_not_enumerated :
  {| ev_cell := Predict; ev_call := randn [1; 32; 32; 3];
     ev_result := Ok (PyArray [1; 32; 32; 3]) |} ∈ trace demo empty_account
  ∧ enumerated (randn [1; 32; 32; 3]) = false.
Proof. split; [vm_compute; find_event|reflexivity]. Qed.

(** C6, amended. Every call a run makes out of the notebook is one of the
    enumerated interfaces, a call of the platform's SDK (session creation,
    execution-role lookup, data upload, estimator construction and fit,
    endpoint deploy, predict and delete) or of the framework's API, except
    three: utils.cifar10_download() into the module next to the notebook,
    the shell line !cat cifar10_cnn.py, and numpy's
    np.random.randn(1, 32, 32, 3). *)
Theorem C6_calls_by_interface (P : Platform) (w : World P) :
  Forall (fun e => enumerated (ev_call e) = true
                   ∨ ev_call e = cifar10_download
                   ∨ ev_call e = shell "cat cifar10_cnn.py"
                   ∨ ev_call e = randn [1; 32; 32; 3]) (trace P w).
Proof.
  run_cells; each_event ltac:(cbn [enumerated interface_of]; auto).
Qed.

(** The three exceptions do occur, each in its own cell. *)
Example demo_calls_outside :
  omap (fun e => if enumerated (ev_call e) then None
                 else Some (ev_cell e, ev_call e)) (trace demo empty_account)
  = [(Download, cifar10_download); (Source, shell "cat cifar10_cnn.py");
     (Predict, randn [1; 32; 32; 3])].
Proof. vm_compute. reflexivity. Qed.

Example demo_interfaces :
  map (fun e => interface_of (ev_call e)) (trace demo empty_account)
  = [PlatformSDK; PlatformSDK; LocalModule; PlatformSDK; Shell; PlatformSDK;
     PlatformSDK; PlatformSDK; Numpy; PlatformSDK; PlatformSDK; PlatformSDK].
Proof. vm_compute. reflexivity. Qed.

(** ** Teardown *)






Example demo_cleanup :
  snd (snd (cell_cleanup demo demo_predictor ([], account_before_cleanup)))
  = {| s3_objects := ["model.tar.gz"; "data/DEMO-cifar10"];
       training_jobs := ["sagemaker-tensorflow-job"];
       endpoints := [] |}.
Proof. vm_compute. reflexivity. Qed.

(** * Further properties of the notebook *)

(** ** How the cells hand values on *)

(** X1. In every run each call works on what an earlier call returned: the
    dataset is uploaded through the session created during set-up, from
    /tmp/cifar10_data under data/DEMO-cifar10; the estimator is built with
    the role that get_execution_role returned; fit trains on the location
    upload_data returned; and deploy is only called on an estimator whose
    fit has returned. *)
Theorem X1_data_flow (P : Platform) (w : World P) :
  Forall (fun e =>
            match ev_call e with
            | upload_data self path key_prefix =>
                {| ev_cell := SetUp; ev_call := Session_new;
                   ev_result := Ok self |} ∈ trace P w
                ∧ path = "/tmp/cifar10_data" ∧ key_prefix = "data/DEMO-cifar10"
            | TensorFlow_new args =>
                {| ev_cell := SetUp; ev_call := get_execution_role;
                   ev_result := Ok (role args) |} ∈ trace P w
            | fit _ inputs =>
                ∃ session path key_prefix,
                  {| ev_cell := Upload;
                     ev_call := upload_data session path key_prefix;
                     ev_result := Ok inputs |} ∈ trace P w
            | deploy self _ _ =>
                ∃ inputs done,
                  {| ev_cell := Train; ev_call := fit self inputs;
                     ev_result := Ok done |} ∈ trace P w
            | _ => True
            end) (trace P w).
Proof.
  run_cells.
  all: each_event ltac:(first [ exact I
                              | find_event
                              | split_and!; [find_event|reflexivity|reflexivity]
                              | do 3 eexists; find_event
                              | do 2 eexists; find_event ]).
Qed.

(** X2. A run that completes has issued exactly twelve calls, each of which
    returned: Session(), get_execution_role(), cifar10_download(),
    upload_data, the shell line, TensorFlow(...), fit, deploy, randn,
    predict, a second Session() and delete_endpoint, with the arguments
    below; the endpoint deleted is the endpoint attribute of the predictor
    that deploy returned. *)
Theorem X2_complete_run (P : Platform) (w : World P) :
  outcome P w = Ok tt →
  ∃ session role downloaded inputs shown estimator trained predictor data
    out session' endpoint deleted,
    getattr predictor "endpoint" = Ok endpoint
    ∧ trace P w =
      [ {| ev_cell := SetUp; ev_call := Session_new; ev_result := Ok session |};
        {| ev_cell := SetUp; ev_call := get_execution_role;
           ev_result := Ok role |};
        {| ev_cell := Download; ev_call := cifar10_download;
           ev_result := Ok downloaded |};
        {| ev_cell := Upload;
           ev_call := upload_data session "/tmp/cifar10_data" "data/DEMO-cifar10";
           ev_result := Ok inputs |};
        {| ev_cell := Source; ev_call := shell "cat cifar10_cnn.py";
           ev_result := Ok shown |};
        {| ev_cell := Train;
           ev_call := TensorFlow_new
                        {| entry_point := "cifar10_cnn.py";
                           role := role;
                           framework_version := "1.11.0";
                           hyperparameters := PyDict notebook_hyperparameters;
                           training_steps := 1000;
                           evaluation_steps := 100;
                           train_instance_count := 1;
                           train_instance_type := "ml.c4.xlarge" |};
           ev_result := Ok estimator |};
        {| ev_cell := Train; ev_call := fit estimator inputs;
           ev_result := Ok trained |};
        {| ev_cell := Deploy; ev_call := deploy estimator 1 "ml.m4.xlarge";
           ev_result := Ok predictor |};
        {| ev_cell := Predict; ev_call := randn [1; 32; 32; 3];
           ev_result := Ok data |};
        {| ev_cell := Predict;
           ev_call := predict predictor (PyDict {[ "inputs_input" := data ]});
           ev_result := Ok out |};
        {| ev_cell := CleanUp; ev_call := Session_new;
           ev_result := Ok session' |};
        {| ev_cell := CleanUp; ev_call := delete_endpoint session' endpoint;
           ev_result := Ok deleted |} ].
Proof.
  run_cells; intros Hok; try discriminate Hok.
  do 13 eexists. split; [eassumption|reflexivity].
Qed.

Lemma X2_witness :
  ∃ session role downloaded inputs shown estimator trained predictor data
    out session' endpoint deleted,
    getattr predictor "endpoint" = Ok endpoint
    ∧ trace demo empty_account =
      [ {| ev_cell := SetUp; ev_call := Session_new; ev_result := Ok session |};
        {| ev_cell := SetUp; ev_call := get_execution_role;
           ev_result := Ok role |};
        {| ev_cell := Download; ev_call := cifar10_download;
           ev_result := Ok downloaded |};
        {| ev_cell := Upload;
           ev_call := upload_data session "/tmp/cifar10_data" "data/DEMO-cifar10";
           ev_result := Ok inputs |};
        {| ev_cell := Source; ev_call := shell "cat cifar10_cnn.py";
           ev_result := Ok shown |};
        {| ev_cell := Train;
           ev_call := TensorFlow_new
                        {| entry_point := "cifar10_cnn.py";
                           role := role;
                           framework_version := "1.11.0";
                           hyperparameters := PyDict notebook_hyperparameters;
                           training_steps := 1000;
                           evaluation_steps := 100;
                           train_instance_count := 1;
                           train_instance_type := "ml.c4.xlarge" |};
           ev_result := Ok estimator |};
        {| ev_cell := Train; ev_call := fit estimator inputs;
           ev_result := Ok trained |};
        {| ev_cell := Deploy; ev_call := deploy estimator 1 "ml.m4.xlarge";
           ev_result := Ok predictor |};
        {| ev_cell := Predict; ev_call := randn [1; 32; 32; 3];
           ev_result := Ok data |};
        {| ev_cell := Predict;
           ev_call := predict predictor (PyDict {[ "inputs_input" := data ]});
           ev_result := Ok out |};
        {| ev_cell := CleanUp; ev_call := Session_new;
           ev_result := Ok session' |};
        {| ev_cell := CleanUp; ev_call := delete_endpoint session' endpoint;
           ev_result := Ok deleted |} ].
Proof.
  apply (X2_complete_run demo empty_account). vm_compute. reflexivity.
Defined.

(** ** The endpoint when a run fails *)

(** X3. Teardown is not protected: when a run ends in an exception, either
    no delete_endpoint call was issued at all, or the delete call itself is
    the last call and raised that exception. So a failure after deploy (in
    randn, in predict, in the second Session(), in reading
    predictor.endpoint) leaves the endpoint that deploy created running. *)
Theorem X3_failure_skips_teardown (P : Platform) (w : World P) (x : exn) :
  outcome P w = Raise x →
  delete_calls (trace P w) = []
  ∨ ∃ session endpoint,
      last (trace P w) =
        Some {| ev_cell := CleanUp;
                ev_call := delete_endpoint session endpoint;
                ev_result := Raise x |}.
Proof.
  run_cells; intros Hx; try discriminate Hx.
  all: injection Hx as <-.
  all: first [ left; vm_compute; reflexivity
             | right; do 2 eexists; reflexivity ].
Qed.

Lemma X3_witness :
  delete_calls
    (trace (failing is_predict (Exception "ModelError" "invocation failed"))
       empty_account) = []
  ∨ ∃ session endpoint,
      last (trace (failing is_predict (Exception "ModelError" "invocation failed"))
              empty_account) =
        Some {| ev_cell := CleanUp;
                ev_call := delete_endpoint session endpoint;
                ev_result := Raise (Exception "ModelError" "invocation failed") |}.
Proof.
  apply (X3_failure_skips_teardown
           (failing is_predict (Exception "ModelError" "invocation failed"))
           empty_account).
  vm_compute. reflexivity.
Defined.

Example predict_fails_endpoint_stays :
  endpoints (final (failing is_predict (Exception "ModelError" "invocation failed"))
               empty_account)
  = ["sagemaker-tensorflow-endpoint"].
Proof. vm_compute. reflexivity. Qed.

(** ** The model function and the serving signature *)

(** X4. keras_model_fn reads learning_rate before decay: without
    learning_rate it raises KeyError('learning_rate') whether or not decay
    is there, and it raises KeyError('decay') only when learning_rate is
    present and decay is not. *)
Theorem X4_first_missing_key (hp : gmap string pyval) :
  (hp !! "learning_rate" = None →
   keras_model_fn hp = Raise (KeyError "learning_rate"))
  ∧ (is_Some (hp !! "learning_rate") → hp !! "decay" = None →
     keras_model_fn hp = Raise (KeyError "decay"))
  ∧ (keras_model_fn hp = Raise (KeyError "decay") →
     is_Some (hp !! "learning_rate") ∧ hp !! "decay" = None).
Proof.
  unfold keras_model_fn, getitem. cbn zeta.
  destruct (hp !! "learning_rate") as [lr|]; cbn [bind_result].
  - destruct (hp !! "decay") as [dc|]; cbn [bind_result].
    + split_and!; [discriminate|discriminate|discriminate].
    + split_and!; [discriminate|reflexivity|eauto].
  - split_and!; [reflexivity|by intros [? ?]|discriminate].
Qed.

Lemma X4_witness :
  keras_model_fn {[ "decay" := PyFloat (Dec 1 (-6)) ]}
  = Raise (KeyError "learning_rate").
Proof.
  apply (proj1 (X4_first_missing_key {[ "decay" := PyFloat (Dec 1 (-6)) ]})).
  reflexivity.
Defined.

(** X5. The placeholder of serving_input_fn has the input shape of the
    model, as the comment in the function says: for every model
    keras_model_fn returns, the shape of each tensor the receiver exposes is
    an unknown batch dimension followed by the input shape the model's first
    layer declares; features and receiver tensors are one and the same
    mapping. *)
Theorem X5_placeholder_is_model_input (name : string) (params : pyval)
    (hp : gmap string pyval) (m : Sequential) (k : string) (ph : Placeholder) :
  keras_model_fn hp = Ok m →
  receiver_tensors (serving_input_fn name params) !! k = Some ph →
  k = name
  ∧ features (serving_input_fn name params)
    = receiver_tensors (serving_input_fn name params)
  ∧ ∃ h w d, declared_input_shape m = Some (h, w, d)
             ∧ shape ph = [None; Some h; Some w; Some d].
Proof.
  intros Hm Hph.
  unfold serving_input_fn in *. cbn [receiver_tensors features] in *.
  apply lookup_singleton_Some in Hph as [<- <-].
  split_and!; [reflexivity|reflexivity|].
  exists HEIGHT, WIDTH, DEPTH. split; [|reflexivity].
  unfold declared_input_shape.
  by rewrite (keras_model_fn_layers hp m Hm).
Qed.

Lemma X5_witness :
  ∃ m ph,
    keras_model_fn notebook_hyperparameters = Ok m
    ∧ receiver_tensors (serving_input_fn "inputs_input" PyNone) !! "inputs_input"
      = Some ph
    ∧ ∃ h w d, declared_input_shape m = Some (h, w, d)
               ∧ shape ph = [None; Some h; Some w; Some d].
Proof.
  eexists _, _. split; [reflexivity|].
  split; [apply lookup_singleton_eq|].
  exact (proj2 (proj2 (X5_placeholder_is_model_input "inputs_input" PyNone
                         notebook_hyperparameters _ "inputs_input" _
                         eq_refl (lookup_singleton_eq _ _)))).
Defined.

Lemma shape_fits_placeholder (s : list nat) :
  shape_fits s [None; Some HEIGHT; Some WIDTH; Some DEPTH] = true
  ↔ ∃ n, s = [n; HEIGHT; WIDTH; DEPTH].
Proof.
  split.
  - destruct s as [|n [|h [|w [|d [|? ?]]]]]; cbn [shape_fits];
      rewrite ?andb_false_r; try discriminate.
    rewrite !andb_true_iff, !Nat.eqb_eq.
    intros (-> & -> & -> & _). by exists n.
  - intros [n ->]. reflexivity.
Qed.

(** X6. The serving signature and the model agree on every batch size: a
    request fits the placeholder of serving_input_fn exactly when it is a
    batch of n images of HEIGHT x WIDTH x DEPTH, for any n, and every such
    batch passes through the layers of the model keras_model_fn returns to n
    rows of NUM_CLASSES scores. *)
Theorem X6_served_batches (name : string) (params : pyval)
    (hp : gmap string pyval) (m : Sequential) (ph : Placeholder) (s : list nat) :
  keras_model_fn hp = Ok m →
  receiver_tensors (serving_input_fn name params) !! name = Some ph →
  (shape_fits s (shape ph) = true ↔ ∃ n, s = [n; HEIGHT; WIDTH; DEPTH])
  ∧ (shape_fits s (shape ph) = true →
     ∃ n, s = [n; HEIGHT; WIDTH; DEPTH]
          ∧ stack_shape (layers m) s = Some [n; NUM_CLASSES]).
Proof.
  intros Hm Hph.
  unfold serving_input_fn in Hph. cbn [receiver_tensors] in Hph.
  rewrite lookup_singleton_eq in Hph. injection Hph as <-. cbn [shape].
  split; [apply shape_fits_placeholder|].
  intros [n ->]%shape_fits_placeholder.
  exists n. split; [reflexivity|].
  rewrite (keras_model_fn_layers hp m Hm). reflexivity.
Qed.

Lemma X6_witness :
  ∃ m ph n,
    keras_model_fn notebook_hyperparameters = Ok m
    ∧ receiver_tensors (serving_input_fn "inputs_input" PyNone) !! "inputs_input"
      = Some ph
    ∧ [64; 32; 32; 3] = [n; HEIGHT; WIDTH; DEPTH]
    ∧ stack_shape (layers m) [64; 32; 32; 3] = Some [n; NUM_CLASSES].
Proof.
  destruct (proj2 (X6_served_batches "inputs_input" PyNone
                     notebook_hyperparameters _ _ [64; 32; 32; 3]
                     eq_refl (lookup_singleton_eq _ _)) eq_refl)
    as (n & Hs & Hout).
  eexists _, _, n. split; [reflexivity|].
  split; [apply lookup_singleton_eq|]. split; assumption.
Defined.

Example batch_of_64 :
  stack_shape (layers cifar10_stack) [64; 32; 32; 3] = Some [64; 10].
Proof. vm_compute. reflexivity. Qed.

Example grey_image_rejected :
  shape_fits [1; 32; 32; 1] [None; Some HEIGHT; Some WIDTH; Some DEPTH] = false.
Proof. reflexivity. Qed.
